(** * The HTTP bootstrap server of [backend/server.js]

    A shallow embedding of the start-up script: the values it passes around,
    the Express application it configures, the process it runs in, and the
    events the runtime delivers to it afterwards. *)

From Stdlib Require Import ZArith String Ascii List Bool Lia.
From Stdlib Require Import DecimalString DecimalNat.
From stdpp Require Import base option list gmap strings.

Set Warnings "-register-all".

Open Scope string_scope.
Open Scope Z_scope.

(** ** JavaScript values *)

(** The values [server.js] handles: [undefined], booleans, integers (every
    number in the script is one), strings, and object literals kept as the
    ordered list of their fields. *)
Inductive jsval : Type :=
| JUndefined
| JNull
| JBool (b : bool)
| JNum (n : Z)
| JStr (s : string)
| JObj (fields : list (string * jsval)).

(** ToBoolean.  Among strings only the empty one is falsy. *)
Definition truthy (v : jsval) : bool :=
  match v with
  | JUndefined | JNull => false
  | JBool b => b
  | JNum n => negb (n =? 0)
  | JStr s => negb (String.eqb s "")
  | JObj _ => true
  end.

(** [a || b] *)
Definition js_or (a b : jsval) : jsval :=
  if truthy a then a else b.

(** [o.k] on an object literal: the last field of that name wins. *)
Fixpoint get_field (fields : list (string * jsval)) (k : string) : jsval :=
  match fields with
  | [] => JUndefined
  | (k', v) :: rest =>
      match get_field rest k with
      | JUndefined => if String.eqb k' k then v else JUndefined
      | found => found
      end
  end.

Definition js_get (o : jsval) (k : string) : jsval :=
  match o with
  | JObj fields => get_field fields k
  | _ => JUndefined
  end.

(** Decimal numerals. *)
Definition nat_to_string (n : nat) : string :=
  NilZero.string_of_uint (Nat.to_uint n).

Definition Z_to_string (n : Z) : string :=
  if n <? 0 then String "-" (nat_to_string (Z.to_nat (- n)))
  else nat_to_string (Z.to_nat n).

(** ToString, as a template literal applies it. *)
Definition js_to_string (v : jsval) : string :=
  match v with
  | JUndefined => "undefined"
  | JNull => "null"
  | JBool true => "true"
  | JBool false => "false"
  | JNum n => Z_to_string n
  | JStr s => s
  | JObj _ => "[object Object]"
  end.

(** *** JSON.stringify *)

Definition dquote : ascii := ascii_of_nat 34.
Definition backslash : ascii := ascii_of_nat 92.

Definition hex_digit (n : nat) : ascii :=
  if (n <? 10)%nat then ascii_of_nat (48 + n) else ascii_of_nat (87 + n).

(** One character of a string literal: the quote, the backslash and the
    control characters are escaped, everything else is copied. *)
Definition json_escape (c : ascii) : string :=
  let n := nat_of_ascii c in
  if Ascii.eqb c dquote then String backslash (String dquote "")
  else if Ascii.eqb c backslash then String backslash (String backslash "")
  else if (n =? 8)%nat then String backslash "b"
  else if (n =? 9)%nat then String backslash "t"
  else if (n =? 10)%nat then String backslash "n"
  else if (n =? 12)%nat then String backslash "f"
  else if (n =? 13)%nat then String backslash "r"
  else if (n <? 32)%nat then
    String backslash
      ("u00" +:+ String (hex_digit (n / 16)%nat) (String (hex_digit (n mod 16)%nat) ""))
  else String c "".

Fixpoint json_escape_string (s : string) : string :=
  match s with
  | EmptyString => ""
  | String c rest => json_escape c +:+ json_escape_string rest
  end.

Definition json_quote (s : string) : string :=
  String dquote (json_escape_string s +:+ String dquote "").

(** [JSON.stringify v]: [None] stands for the [undefined] it returns on
    [undefined]; a field whose value is [undefined] is left out. *)
Fixpoint stringify (v : jsval) : option string :=
  match v with
  | JUndefined => None
  | JNull => Some "null"
  | JBool true => Some "true"
  | JBool false => Some "false"
  | JNum n => Some (Z_to_string n)
  | JStr s => Some (json_quote s)
  | JObj fields =>
      let fix members (fs : list (string * jsval)) : list string :=
        match fs with
        | [] => []
        | (k, x) :: rest =>
            match stringify x with
            | Some t => (json_quote k +:+ ":" +:+ t) :: members rest
            | None => members rest
            end
        end in
      Some ("{" +:+ String.concat "," (members fields) +:+ "}")
  end.

(** ** The environment and the port *)

(** [process.env]: every value is a string. *)
Definition env_get (env : gmap string string) (k : string) : jsval :=
  match env !! k with
  | Some s => JStr s
  | None => JUndefined
  end.

Definition digit_of (c : ascii) : option Z :=
  let n := Z.of_nat (nat_of_ascii c) in
  if (48 <=? n) && (n <=? 57) then Some (n - 48) else None.

Fixpoint digits_acc (s : string) (acc : Z) : option Z :=
  match s with
  | EmptyString => Some acc
  | String c rest =>
      match digit_of c with
      | Some d => digits_acc rest (10 * acc + d)
      | None => None
      end
  end.

(** The number a string of decimal digits denotes.  The runtime's [Number]
    reads more spellings (surrounding blanks, hexadecimal, exponents); on
    those this function gives [None], and [listen_target] leaves them to the
    runtime. *)
Definition decimal_of_string (s : string) : option Z :=
  match s with
  | EmptyString => None
  | _ => digits_acc s 0
  end.

(** The TCP port the runtime binds for the first argument of [listen], a
    number or a numeric string, when it is one in [0..65535]. *)
Definition tcp_port (v : jsval) : option Z :=
  match v with
  | JNum n => if (0 <=? n) && (n <=? 65535) then Some n else None
  | JStr s =>
      match decimal_of_string s with
      | Some n => if n <=? 65535 then Some n else None
      | None => None
      end
  | _ => None
  end.

(** ** HTTP requests and responses *)

Inductive method : Type := GET | HEAD | POST | PUT | PATCH | DELETE | OPTIONS.

Definition method_eqb (a b : method) : bool :=
  match a, b with
  | GET, GET | HEAD, HEAD | POST, POST | PUT, PUT
  | PATCH, PATCH | DELETE, DELETE | OPTIONS, OPTIONS => true
  | _, _ => false
  end.

(** A request as the middleware sees it.  Header names are lower-cased, as
    the runtime hands them over.  [req_type] is the media type of the
    Content-Type header, [req_raw] the body when the request carries one,
    [req_parsed] the mark a body parser leaves once it has filled
    [req_body]. *)
Record request : Type := {
  req_method : method;
  req_path : string;
  req_query : string;
  req_headers : gmap string string;
  req_type : option string;
  req_raw : option string;
  req_parsed : bool;
  req_body : jsval
}.

Record response : Type := {
  res_status : Z;
  res_headers : gmap string string;
  res_body : string
}.

(** The response object a request starts with. *)
Definition fresh_response : response :=
  {| res_status := 200; res_headers := ∅; res_body := "" |}.

Definition set_header (k v : string) (rs : response) : response :=
  {| res_status := res_status rs;
     res_headers := <[k := v]> (res_headers rs);
     res_body := res_body rs |}.

Definition set_status (st : Z) (rs : response) : response :=
  {| res_status := st; res_headers := res_headers rs; res_body := res_body rs |}.

Definition set_body (b : string) (rs : response) : response :=
  {| res_status := res_status rs; res_headers := res_headers rs; res_body := b |}.

Definition with_body (v : jsval) (parsed : bool) (rq : request) : request :=
  {| req_method := req_method rq; req_path := req_path rq;
     req_query := req_query rq; req_headers := req_headers rq;
     req_type := req_type rq; req_raw := req_raw rq;
     req_parsed := parsed; req_body := v |}.

(** What a middleware or a handler does with a request: hand it on
    ([next()]), end the response, or raise an error ([next(err)]) that
    carries an HTTP status. *)
Inductive outcome : Type :=
| Next (rq : request) (rs : response)
| Sent (rs : response)
| Fail (status : Z) (rq : request) (rs : response).

(** What a body parser makes of a request: it hands it on, with the parsed
    body filled in if there was one to parse, or refuses it with a status. *)
Inductive body_result : Type :=
| Pass (rq : request)
| Refuse (status : Z) (rq : request).

(** What the reader of a body parser makes of the bytes of a body: the text,
    once inflated and decoded, or a refusal with a status. *)
Inductive reading : Type :=
| Read (text : string)
| Unreadable (status : Z).


(** The state of the database connection, which handlers may consult:
    no attempt yet, an attempt in flight, a connection, a failed attempt,
    or an attempt that died with the process. *)
Inductive db_state : Type :=
| DbIdle | DbConnecting | DbConnected | DbFailed | DbAbandoned.

Definition handler : Type := db_state -> request -> response -> outcome.

(** *** The cross-origin middleware *)

Inductive origin_policy : Type :=
| AnyOrigin
| OnlyOrigins (allowed : list string).

Record cors_options : Type := {
  cors_origin : origin_policy;
  cors_methods : string;
  preflightContinue : bool;
  optionsSuccessStatus : Z
}.

(** [cors()] without an argument. *)
Definition cors_defaults : cors_options :=
  {| cors_origin := AnyOrigin;
     cors_methods := "GET,HEAD,PUT,PATCH,POST,DELETE";
     preflightContinue := false;
     optionsSuccessStatus := 204 |}.

Definition configure_origin (o : cors_options) (rq : request) (rs : response)
  : response :=
  match cors_origin o with
  | AnyOrigin => set_header "access-control-allow-origin" "*" rs
  | OnlyOrigins allowed =>
      let rs := set_header "vary" "Origin" rs in
      match req_headers rq !! "origin" with
      | Some org =>
          if existsb (String.eqb org) allowed
          then set_header "access-control-allow-origin" org rs
          else rs
      | None => rs
      end
  end.

Definition configure_allowed_headers (rq : request) (rs : response)
  : response :=
  let rs := set_header "vary" "Access-Control-Request-Headers" rs in
  match req_headers rq !! "access-control-request-headers" with
  | Some hs =>
      if String.eqb hs "" then rs
      else set_header "access-control-allow-headers" hs rs
  | None => rs
  end.

Definition cors_run (o : cors_options) (rq : request) (rs : response)
  : outcome :=
  match req_method rq with
  | OPTIONS =>
      let rs := configure_origin o rq rs in
      let rs := set_header "access-control-allow-methods" (cors_methods o) rs in
      let rs := configure_allowed_headers rq rs in
      if preflightContinue o then Next rq rs
      else Sent (set_header "content-length" "0"
                   (set_status (optionsSuccessStatus o) rs))
  | _ => Next rq (configure_origin o rq rs)
  end.

(** *** Routing *)

Definition lower_ascii (c : ascii) : ascii :=
  let n := nat_of_ascii c in
  if ((65 <=? n) && (n <=? 90))%nat then ascii_of_nat (n + 32) else c.

Fixpoint lower (s : string) : string :=
  match s with
  | EmptyString => ""
  | String c rest => String (lower_ascii c) (lower rest)
  end.

Fixpoint strip_slash (s : string) : string :=
  match s with
  | EmptyString => ""
  | String c EmptyString => if Ascii.eqb c "/" then "" else s
  | String c rest => String c (strip_slash rest)
  end.

(** A literal route path against a request path, under the framework's
    defaults: letter case is ignored and one trailing slash is optional. *)
Definition path_matches (pattern path : string) : bool :=
  String.eqb (lower (strip_slash pattern)) (lower (strip_slash path)).

(** A route registered for GET also answers HEAD. *)
Definition method_matches (m : method) (rq : request) : bool :=
  method_eqb (req_method rq) m
  || (method_eqb (req_method rq) HEAD && method_eqb m GET).

(** The first non-blank character of a body. *)
Fixpoint firstchar (s : string) : option ascii :=
  match s with
  | EmptyString => None
  | String c rest =>
      let n := nat_of_ascii c in
      if ((n =? 32) || (n =? 9) || (n =? 10) || (n =? 13))%nat
      then firstchar rest else Some c
  end.

(** ** The application *)

(** What [app.use] and [app.get] push on the router's stack.  [Custom] is a
    middleware given by its behaviour.  [server.js] registers no
    error-handling middleware, and the model has none. *)
Inductive middleware : Type :=
| Cors (o : cors_options)
| JsonParser
| UrlencodedParser (extended : bool)
| Custom (f : handler).

Inductive layer : Type :=
| Use (m : middleware)
| Route (m : method) (path : string) (h : handler).

(** [express.json()] *)
Definition express_json : middleware := JsonParser.

(** [express.urlencoded(options)]: the extended parser is used unless
    [options.extended] is [false]. *)
Definition express_urlencoded (options : jsval) : middleware :=
  UrlencodedParser
    match js_get options "extended" with
    | JBool false => false
    | _ => true
    end.

(** [cors()] *)
Definition cors : middleware := Cors cors_defaults.

(** ** The process *)

(** What ends up on the error stream: the error of a request that reached
    the final handler, and the exception that nothing caught. *)
Inductive report : Type :=
| RequestError (status : Z)
| Uncaught (err : jsval).

(** The fields are the router's stack, the connect calls made, the state of
    the connection, the arguments of the listen call, whether the server is
    listening, the lines written with [console.log], [process.exitCode],
    the exit status once the process has ended, the error stream, and the
    [env] setting of the application. *)
Record process : Type := {
  stack : list layer;
  connect_calls : list (string * jsval);
  db : db_state;
  listen_call : option (jsval * string);
  listening : bool;
  console : list (list jsval);
  exitCode : option Z;
  exited : option Z;
  stderr : list report;
  app_env : string
}.

(** A freshly started process, before the first statement of the script. *)
Definition node_start : process :=
  {| stack := []; connect_calls := []; db := DbIdle; listen_call := None;
     listening := false; console := []; exitCode := None; exited := None;
     stderr := []; app_env := "" |}.

(** A statement transforms the process; nothing runs once it has exited. *)
Definition stmt : Type := process -> process.

Definition seq (a b : stmt) : stmt :=
  fun p =>
    let p' := a p in
    match exited p' with
    | Some _ => p'
    | None => b p'
    end.

Declare Scope stmt_scope.
Delimit Scope stmt_scope with stmt.
Notation "a ;; b" := (seq a b)
  (at level 100, b at level 200, right associativity) : stmt_scope.
Open Scope stmt_scope.

Definition push_layer (l : layer) : stmt :=
  fun p =>
    {| stack := stack p ++ [l]; connect_calls := connect_calls p; db := db p;
       listen_call := listen_call p; listening := listening p;
       console := console p; exitCode := exitCode p; exited := exited p;
       stderr := stderr p; app_env := app_env p |}.

(** [app.use(m)] *)
Definition app_use (m : middleware) : stmt := push_layer (Use m).

(** [app.get(path, h)] *)
Definition app_get (path : string) (h : handler) : stmt :=
  push_layer (Route GET path h).

(** [console.log(...args)] *)
Definition console_log (args : list jsval) : stmt :=
  fun p =>
    {| stack := stack p; connect_calls := connect_calls p; db := db p;
       listen_call := listen_call p; listening := listening p;
       console := console p ++ [args]; exitCode := exitCode p;
       exited := exited p;
       stderr := stderr p; app_env := app_env p |}.

(** [process.exit(code)]: without a code the process ends with
    [process.exitCode] when that has been set and with 0 otherwise. *)
Definition process_exit (code : option Z) : stmt :=
  fun p =>
    {| stack := stack p; connect_calls := connect_calls p; db := db p;
       listen_call := listen_call p; listening := listening p;
       console := console p; exitCode := exitCode p;
       exited := Some (default (default 0 (exitCode p)) code);
       stderr := stderr p; app_env := app_env p |}.

(** [mongoose.connect(url, options)]: the attempt starts and the script goes
    on; the promise settles later, see [event]. *)
Definition mongoose_connect (url : string) (options : jsval) : stmt :=
  fun p =>
    {| stack := stack p;
       connect_calls := connect_calls p ++ [(url, options)];
       db := DbConnecting;
       listen_call := listen_call p; listening := listening p;
       console := console p; exitCode := exitCode p; exited := exited p;
       stderr := stderr p; app_env := app_env p |}.

(** [app.listen(port, host, callback)]: the bind is asked for; the callback
    runs when the runtime reports it done. *)
Definition app_listen (port : jsval) (host : string) : stmt :=
  fun p =>
    {| stack := stack p; connect_calls := connect_calls p; db := db p;
       listen_call := Some (port, host); listening := listening p;
       console := console p; exitCode := exitCode p; exited := exited p;
       stderr := stderr p; app_env := app_env p |}.

Definition set_db (d : db_state) : stmt :=
  fun p =>
    {| stack := stack p; connect_calls := connect_calls p; db := d;
       listen_call := listen_call p; listening := listening p;
       console := console p; exitCode := exitCode p; exited := exited p;
       stderr := stderr p; app_env := app_env p |}.

Definition set_listening : stmt :=
  fun p =>
    {| stack := stack p; connect_calls := connect_calls p; db := db p;
       listen_call := listen_call p; listening := true;
       console := console p; exitCode := exitCode p; exited := exited p;
       stderr := stderr p; app_env := app_env p |}.

(** [express()]: the application takes its [env] setting from NODE_ENV. *)
Definition express_app (env : gmap string string) : stmt :=
  fun p =>
    {| stack := stack p; connect_calls := connect_calls p; db := db p;
       listen_call := listen_call p; listening := listening p;
       console := console p; exitCode := exitCode p; exited := exited p;
       stderr := stderr p;
       app_env :=
         js_to_string (js_or (env_get env "NODE_ENV") (JStr "development")) |}.

(** An exception that nothing catches: the runtime prints it and the process
    ends with status 1; a connection attempt in flight dies with it. *)
Definition uncaught (err : jsval) : stmt :=
  fun p =>
    {| stack := stack p; connect_calls := connect_calls p; db := DbAbandoned;
       listen_call := listen_call p; listening := listening p;
       console := console p; exitCode := exitCode p; exited := Some 1;
       stderr := stderr p ++ [Uncaught err]; app_env := app_env p |}.

(** The framework's default error logging: the error of a request that
    reached the final handler is printed, unless the application runs with
    the [env] setting [test]. *)
Definition log_request_error (err : option Z) : stmt :=
  fun p =>
    match err with
    | Some st =>
        if String.eqb (app_env p) "test" then p
        else
          {| stack := stack p; connect_calls := connect_calls p; db := db p;
             listen_call := listen_call p; listening := listening p;
             console := console p; exitCode := exitCode p;
             exited := exited p;
             stderr := stderr p ++ [RequestError st]; app_env := app_env p |}
    | None => p
    end.

(** The endpoint the process has asked the runtime for, as far as the port
    is one in [0..65535]; whether and where the runtime binds is another
    matter, see [bound_socket]. *)
Definition requested_endpoint (p : process) : option (Z * string) :=
  match listen_call p with
  | Some (port, host) =>
      match tcp_port port with
      | Some n => Some (n, host)
      | None => None
      end
  | None => None
  end.

(** ** [server.js] *)

(** The payload of the welcome route. *)
Definition welcome : jsval :=
  JObj [("message", JStr "Welcome to Test application.")].

(** Its serialisation, character by character. *)
Definition welcome_text : string :=
  "{" +:+ String dquote "message" +:+ String dquote ":"
  +:+ String dquote "Welcome to Test application." +:+ String dquote "}".

(** The options object of the connect call. *)
Definition connect_options : jsval :=
  JObj [("useNewUrlParser", JBool true); ("useUnifiedTopology", JBool true)].

(** [.then(() => { console.log("Connected to the database!") })] *)
Definition on_connected : stmt :=
  console_log [JStr "Connected to the database!"].

(** [.catch(err => { console.log("Cannot connect to the database!", err);
    process.exit() })] *)
Definition on_connect_error (err : jsval) : stmt :=
  console_log [JStr "Cannot connect to the database!"; err] ;;
  process_exit None.

(** The callback of [listen], which prints the [PORT] it closes over. *)
Definition on_listening (PORT : jsval) : stmt :=
  console_log
    [JStr ("Server is running on port " +:+ js_to_string PORT +:+ ".")].

(** What the runtime delivers after the script has run: the connection
    promise settles one way or the other, the bind completes or fails (the
    address is in use, say), a request arrives. *)
Inductive event : Type :=
| DbResolved
| DbRejected (err : jsval)
| Bound
| BindFailed (err : jsval)
| Incoming (rq : request).

(** What the runtime takes the first argument of [listen] for: a port, any
    port of its own choice (port 0), the name of a pipe, or nothing it can
    listen on. *)
Inductive target : Type :=
| Port (n : Z)
| AnyPort
| Pipe (path : string)
| BadPort.

(** What a listening server is bound to. *)
Inductive socket : Type :=
| TcpSocket (host : string) (port : Z)
| TcpAnyPort (host : string)
| PipeSocket (path : string).

(** ** The runtime and the libraries *)

(** What the script relies on and does not contain: [JSON.parse] and the two
    query-string parsers of the body parser ([None] is a thrown error); the
    readers of the two body parsers, which check the charset and the
    content encoding (415), the length against the limit of 100kb (413) and
    against Content-Length (400), then inflate and decode; the document the
    final handler writes for a status; the entity tag of a body; whether an
    If-None-Match value lists an entity tag; whether a Cache-Control value
    says no-cache; whether a Last-Modified date is no later than an
    If-Modified-Since date; a content type with its charset set to utf-8;
    and how [listen] reads a port that is not written in decimal digits. *)
Class runtime : Type := {
  JSON_parse : string -> option jsval;
  qs_parse : string -> option jsval;
  querystring_parse : string -> option jsval;
  read_json : request -> reading;
  read_form : request -> reading;
  error_page : Z -> string;
  etag_of : string -> string;
  none_match : string -> string -> bool;
  no_cache : string -> bool;
  not_modified_since : string -> string -> bool;
  with_utf8 : string -> string;
  port_reading : string -> target
}.

(** ** Sample data *)

(** The connection string of the deployment. *)
Definition sample_url : string := "mongodb://mongo:27017/dd_db".

(** A route module in the shape the spec expects: one router mounted under
    its own prefix, whose answers need the database. *)
Definition sample_router : handler :=
  fun d rq rs =>
    if String.prefix "/api/tutorials" (req_path rq)
    then match d with
         | DbConnected => Sent (set_body "[]" rs)
         | _ => Fail 500 rq rs
         end
    else Next rq rs.

Definition sample_routes : list layer := [Use (Custom sample_router)].

(** A parser that reads the empty object and nothing else. *)
Definition sample_parse (s : string) : option jsval :=
  if String.eqb s "{}" then Some (JObj []) else None.

(** A parser that takes any text whatever. *)
Definition lenient_parse (s : string) : option jsval := Some (JStr s).

Definition sample_page (st : Z) : string := Z_to_string st.

(** A reader for plain bodies: the bytes are the text, up to the limit. *)
Definition sample_reader (rq : request) : reading :=
  match req_raw rq with
  | Some raw =>
      if 102400 <? Z.of_nat (String.length raw) then Unreadable 413
      else Read raw
  | None => Read ""
  end.

Definition sample_etag (body : string) : string :=
  "W/" +:+ nat_to_string (String.length body).

Definition plain_request (m : method) (path : string) : request :=
  {| req_method := m; req_path := path; req_query := "";
     req_headers := ∅; req_type := None; req_raw := None;
     req_parsed := false; req_body := JUndefined |}.

(** [GET /] from another origin. *)
Definition get_root_from (origin : string) : request :=
  {| req_method := GET; req_path := "/"; req_query := "";
     req_headers := {["origin" := origin]}; req_type := None;
     req_raw := None; req_parsed := false; req_body := JUndefined |}.

(** [GET /] carrying a body that claims to be JSON and is not. *)
Definition get_root_malformed : request :=
  {| req_method := GET; req_path := "/"; req_query := "";
     req_headers := {["content-type" := "application/json"]};
     req_type := Some "application/json"; req_raw := Some "nope";
     req_parsed := false; req_body := JUndefined |}.

(** A form parser that reads one field and nothing else. *)
Definition sample_form_parse (s : string) : option jsval :=
  if String.eqb s "title=a" then Some (JObj [("title", JStr "a")]) else None.

(** A preflight for a JSON [POST] from another origin. *)
Definition preflight_request : request :=
  {| req_method := OPTIONS; req_path := "/api/tutorials"; req_query := "";
     req_headers :=
       {["origin" := "http://a.example";
         "access-control-request-method" := "POST";
         "access-control-request-headers" := "content-type"]};
     req_type := None; req_raw := None;
     req_parsed := false; req_body := JUndefined |}.

(** A [POST] with a body of the given type. *)
Definition post_request (path type raw : string) : request :=
  {| req_method := POST; req_path := path; req_query := "";
     req_headers := {["content-type" := type]};
     req_type := Some type; req_raw := Some raw;
     req_parsed := false; req_body := JUndefined |}.

(** [GET /] asking whether anything at all has changed. *)
Definition get_root_if_none_match : request :=
  {| req_method := GET; req_path := "/"; req_query := "";
     req_headers := {["if-none-match" := "*"]}; req_type := None;
     req_raw := None; req_parsed := false; req_body := JUndefined |}.

Definition sample_node : runtime :=
  {| JSON_parse := sample_parse;
     qs_parse := sample_form_parse;
     querystring_parse := sample_form_parse;
     read_json := sample_reader;
     read_form := sample_reader;
     error_page := sample_page;
     etag_of := sample_etag;
     none_match := String.eqb;
     no_cache := String.eqb "no-cache";
     not_modified_since := String.eqb;
     with_utf8 := fun t => t;
     port_reading := Pipe |}.

(** The same with a parser that takes any text. *)
Definition lenient_node : runtime :=
  {| JSON_parse := lenient_parse;
     qs_parse := sample_form_parse;
     querystring_parse := sample_form_parse;
     read_json := sample_reader;
     read_form := sample_reader;
     error_page := sample_page;
     etag_of := sample_etag;
     none_match := String.eqb;
     no_cache := String.eqb "no-cache";
     not_modified_since := String.eqb;
     with_utf8 := fun t => t;
     port_reading := Pipe |}.

Section Server.

(** Modelled from the spec: the database module [./app/models] is not among
    the sources; it exposes a connection-string value, taken here as given. *)
Variable db_url : string.

(** Modelled from the spec: the route module [./app/routes/turorial.routes]
    is not among the sources; it is a function that receives the application
    and performs its own registrations, taken here as the layers it adds. *)
Variable tutorial_routes : list layer.

Context {node : runtime}.

(** *** Sending a response *)

(** A header that is there and not empty. *)
Definition present (h : option string) : bool :=
  match h with
  | Some v => negb (String.eqb v "")
  | None => false
  end.

(** Whether the entity tags of an If-None-Match header all miss the
    response: [*] misses nothing, and without a tag on the response every
    list does. *)
Definition etag_stale (noneMatch : option string)
  (resh : gmap string string) : bool :=
  match noneMatch with
  | Some nm =>
      if String.eqb nm "" || String.eqb nm "*" then false
      else if present (resh !! "etag")
           then negb (none_match nm (default "" (resh !! "etag")))
           else true
  | None => false
  end.

(** Whether the response may have changed since the date of an
    If-Modified-Since header; without a date on the response it may. *)
Definition modified_stale (modifiedSince : option string)
  (resh : gmap string string) : bool :=
  match modifiedSince with
  | Some ms =>
      if String.eqb ms "" then false
      else if present (resh !! "last-modified")
           then negb (not_modified_since (default "" (resh !! "last-modified"))
                        ms)
           else true
  | None => false
  end.

(** Whether the client's copy is still good: the request is conditional,
    does not insist on a new copy, and none of its conditions fails. *)
Definition fresh (reqh resh : gmap string string) : bool :=
  if negb (present (reqh !! "if-modified-since"))
     && negb (present (reqh !! "if-none-match"))
  then false
  else if present (reqh !! "cache-control")
          && no_cache (default "" (reqh !! "cache-control"))
  then false
  else if etag_stale (reqh !! "if-none-match") resh then false
  else if modified_stale (reqh !! "if-modified-since") resh then false
  else true.

(** [req.fresh]: only a GET or a HEAD that is about to succeed can be. *)
Definition req_fresh (rq : request) (rs : response) : bool :=
  match req_method rq with
  | GET | HEAD =>
      if ((200 <=? res_status rs) && (res_status rs <? 300))
         || (res_status rs =? 304)
      then fresh (req_headers rq) (res_headers rs)
      else false
  | _ => false
  end.

Definition remove_header (k : string) (rs : response) : response :=
  {| res_status := res_status rs;
     res_headers := delete k (res_headers rs);
     res_body := res_body rs |}.

(** The end of [res.send]: a fresh request is answered 304; a 204 or a 304
    loses its content headers and its body, a 205 its body; a HEAD gets the
    headers without the body. *)
Definition send_end (body : string) (rq : request) (rs : response)
  : response :=
  let rs := if req_fresh rq rs then set_status 304 rs else rs in
  let stripped := (res_status rs =? 204) || (res_status rs =? 304) in
  let rs :=
    if stripped
    then remove_header "transfer-encoding"
           (remove_header "content-length" (remove_header "content-type" rs))
    else rs in
  let reset := res_status rs =? 205 in
  let rs :=
    if reset
    then remove_header "transfer-encoding" (set_header "content-length" "0" rs)
    else rs in
  let body := if stripped || reset then "" else body in
  match req_method rq with
  | HEAD => set_body "" rs
  | _ => set_body body rs
  end.

(** [res.json(v)], with the [res.send] it ends in.  The content type is
    JSON unless one is set already; the serialisation of [v] gets its
    length and, unless the response has one, its entity tag; the status is
    left as it is, but for what [send_end] does.  [rq] is the request the
    response object belongs to. *)
Definition res_json (v : jsval) (rq : request) (rs : response) : response :=
  let typed := present (res_headers rs !! "content-type") in
  match stringify v with
  | Some body =>
      let rs :=
        if typed
        then set_header "content-type"
               (with_utf8 (default "" (res_headers rs !! "content-type"))) rs
        else set_header "content-type" "application/json; charset=utf-8" rs in
      let tagged := present (res_headers rs !! "etag") in
      let rs :=
        set_header "content-length" (nat_to_string (String.length body)) rs in
      let rs :=
        if tagged || String.eqb (etag_of body) "" then rs
        else set_header "etag" (etag_of body) rs in
      send_end body rq rs
  | None =>
      let rs :=
        if typed then rs
        else set_header "content-type" "application/json; charset=utf-8" rs in
      send_end "" rq rs
  end.

(** [(req, res) => { res.json({ message: "Welcome to Test application." }) }]:
    the handler itself looks neither at the request nor at the database. *)
Definition root_handler : handler :=
  fun _ rq rs => Sent (res_json welcome rq rs).

Definition type_is (rq : request) (t : string) : bool :=
  match req_type rq with
  | Some t' => String.eqb (lower t') t
  | None => false
  end.

(** The JSON body parser with its defaults (strict mode): a request without
    a body, or whose type is not JSON, is passed on untouched; otherwise the
    reader has its say; an empty text reads as [{}]; any other text must
    start an object or an array and parse, or the request is refused with
    400. *)
Definition json_body (rq : request) : body_result :=
  if req_parsed rq then Pass rq
  else
    let rq := with_body (js_or (req_body rq) (JObj [])) false rq in
    match req_raw rq with
    | None => Pass rq
    | Some _ =>
        if negb (type_is rq "application/json") then Pass rq
        else
          match read_json rq with
          | Unreadable st => Refuse st (with_body (req_body rq) true rq)
          | Read text =>
              if String.eqb text "" then Pass (with_body (JObj []) true rq)
              else
                match firstchar text with
                | Some c =>
                    if Ascii.eqb c "{" || Ascii.eqb c "["
                    then match JSON_parse text with
                         | Some v => Pass (with_body v true rq)
                         | None =>
                             Refuse 400 (with_body (req_body rq) true rq)
                         end
                    else Refuse 400 (with_body (req_body rq) true rq)
                | None => Refuse 400 (with_body (req_body rq) true rq)
                end
          end
    end.

(** The URL-encoded body parser: the same skeleton, with the query-string
    parser chosen by [extended]; a refusal of that parser is a 413. *)
Definition urlencoded_body (extended : bool) (rq : request) : body_result :=
  if req_parsed rq then Pass rq
  else
    let rq := with_body (js_or (req_body rq) (JObj [])) false rq in
    match req_raw rq with
    | None => Pass rq
    | Some _ =>
        if negb (type_is rq "application/x-www-form-urlencoded") then Pass rq
        else
          match read_form rq with
          | Unreadable st => Refuse st (with_body (req_body rq) true rq)
          | Read text =>
              if String.eqb text "" then Pass (with_body (JObj []) true rq)
              else
                match (if extended then qs_parse else querystring_parse) text
                with
                | Some v => Pass (with_body v true rq)
                | None => Refuse 413 (with_body (req_body rq) true rq)
                end
          end
    end.

(** A body parser as a middleware: it never touches the response. *)
Definition body_parser (r : body_result) (rs : response) : outcome :=
  match r with
  | Pass rq => Next rq rs
  | Refuse st rq => Fail st rq rs
  end.

Definition run_middleware (m : middleware) (d : db_state)
  (rq : request) (rs : response) : outcome :=
  match m with
  | Cors o => cors_run o rq rs
  | JsonParser => body_parser (json_body rq) rs
  | UrlencodedParser extended => body_parser (urlencoded_body extended rq) rs
  | Custom f => f d rq rs
  end.

(** One layer of the stack: a middleware runs on every request, a route
    only on the requests it matches. *)
Definition run_layer (l : layer) (d : db_state) (rq : request) (rs : response)
  : outcome :=
  match l with
  | Use m => run_middleware m d rq rs
  | Route m path h =>
      if method_matches m rq && path_matches path (req_path rq)
      then h d rq rs else Next rq rs
  end.

(** The final handler: it answers with the status of the error, or with 404
    when the stack ran out, and keeps the headers set so far apart from the
    content ones. *)
Definition finalhandler (st : Z) (rs : response) : response :=
  {| res_status := st;
     res_headers :=
       <["content-type" := "text/html; charset=utf-8"]>
         (<["x-content-type-options" := "nosniff"]>
            (<["content-security-policy" := "default-src 'none'"]>
               (delete "content-encoding"
                  (delete "content-language"
                     (delete "content-range" (res_headers rs))))));
     res_body := error_page st |}.

(** A request goes down the stack in registration order until a layer ends
    the response; an error raised on the way goes to the final handler. *)
Fixpoint dispatch (layers : list layer) (d : db_state)
  (rq : request) (rs : response) : response :=
  match layers with
  | [] => finalhandler 404 rs
  | l :: rest =>
      match run_layer l d rq rs with
      | Next rq' rs' => dispatch rest d rq' rs'
      | Sent rs' => rs'
      | Fail st _ rs' => finalhandler st rs'
      end
  end.

(** The error that reaches the final handler on that way, if any. *)
Fixpoint dispatch_error (layers : list layer) (d : db_state)
  (rq : request) (rs : response) : option Z :=
  match layers with
  | [] => None
  | l :: rest =>
      match run_layer l d rq rs with
      | Next rq' rs' => dispatch_error rest d rq' rs'
      | Sent _ => None
      | Fail st _ _ => Some st
      end
  end.

(** [require("./app/routes/turorial.routes")(app)] *)
Definition mount_routes : stmt :=
  fun p => fold_left (fun q l => push_layer l q) tutorial_routes p.

(** The script, statement by statement. *)
Definition server_js (env : gmap string string) : stmt :=
  express_app env ;;
  app_use cors ;;
  app_use express_json ;;
  app_use (express_urlencoded (JObj [("extended", JBool true)])) ;;
  mongoose_connect db_url connect_options ;;
  app_get "/" root_handler ;;
  mount_routes ;;
  (let PORT := js_or (env_get env "PORT") (JNum 8080) in
   app_listen PORT "0.0.0.0").

(** The process once the statements of the script have run, the last one
    taken to return. *)
Definition boot (env : gmap string string) : process :=
  server_js env node_start.

(** The value the script passes to [listen] as the port. *)
Definition chosen_port (env : gmap string string) : jsval :=
  js_or (env_get env "PORT") (JNum 8080).

(** How [listen] reads its first argument: a number or a string of decimal
    digits is a port when it is in [1..65535], any port when it is 0, and
    makes [listen] throw when it is larger; other strings are read as the
    runtime reads them; [undefined] is any port. *)
Definition listen_target (v : jsval) : target :=
  match v with
  | JNum n =>
      if n =? 0 then AnyPort
      else if (0 <? n) && (n <=? 65535) then Port n else BadPort
  | JStr s =>
      match decimal_of_string s with
      | Some n =>
          if n =? 0 then AnyPort else if n <=? 65535 then Port n else BadPort
      | None => port_reading s
      end
  | JUndefined => AnyPort
  | _ => BadPort
  end.

(** The process as the runtime leaves it after the script: when [listen]
    throws on its port, nothing in the script catches that. *)
Definition start (env : gmap string string) : process :=
  match listen_target (chosen_port env) with
  | BadPort => uncaught (JStr "ERR_SOCKET_BAD_PORT") (boot env)
  | _ => boot env
  end.

(** What a process that is alive and listening is bound to. *)
Definition bound_socket (p : process) : option socket :=
  match exited p, listening p, listen_call p with
  | None, true, Some (port, host) =>
      match listen_target port with
      | Port n => Some (TcpSocket host n)
      | AnyPort => Some (TcpAnyPort host)
      | Pipe path => Some (PipeSocket path)
      | BadPort => None
      end
  | _, _, _ => None
  end.

(** The reaction to one event, with the response written if the event was a
    request.  A process that has exited does nothing; a promise settles
    once; the bind completes or fails once, and a failure comes in the first
    turns of the event loop, before the connection can have settled, and is
    an error nothing listens for; a request is only answered by a listening
    process, and its error, if it ends with one, is logged. *)
Definition react (p : process) (e : event) : process * option response :=
  match exited p with
  | Some _ => (p, None)
  | None =>
      match e with
      | DbResolved =>
          match db p with
          | DbConnecting => ((set_db DbConnected ;; on_connected) p, None)
          | _ => (p, None)
          end
      | DbRejected err =>
          match db p with
          | DbConnecting => ((set_db DbFailed ;; on_connect_error err) p, None)
          | _ => (p, None)
          end
      | Bound =>
          match listen_call p with
          | Some (PORT, _) =>
              if listening p then (p, None)
              else ((set_listening ;; on_listening PORT) p, None)
          | None => (p, None)
          end
      | BindFailed err =>
          match listen_call p, listening p, db p with
          | Some _, false, DbConnecting => (uncaught err p, None)
          | _, _, _ => (p, None)
          end
      | Incoming rq =>
          if listening p
          then (log_request_error
                  (dispatch_error (stack p) (db p) rq fresh_response) p,
                Some (dispatch (stack p) (db p) rq fresh_response))
          else (p, None)
      end
  end.

Fixpoint run (p : process) (tr : list event) : process :=
  match tr with
  | [] => p
  | e :: rest => run (fst (react p e)) rest
  end.

(** The body parsers let the request through. *)
Definition parsers_accept (rq : request) : bool :=
  match json_body rq with
  | Pass rq' =>
      match urlencoded_body true rq' with
      | Pass _ => true
      | Refuse _ _ => false
      end
  | Refuse _ _ => false
  end.

(** What no event changes: the stack, the connect calls made, the bind asked
    for, and [process.exitCode]. *)
Definition same_setup (p q : process) : Prop :=
  stack q = stack p /\ connect_calls q = connect_calls p
  /\ listen_call q = listen_call p /\ exitCode q = exitCode p.

(** The shape of every state the process goes through: nothing has set
    [process.exitCode]; a running process has a pending or an established
    connection; an exited one exited with 0 after a failed connection, or
    with 1 on an uncaught exception. *)
Definition sound (p : process) : Prop :=
  exitCode p = None
  /\ match exited p with
     | Some c => (c = 0 /\ db p = DbFailed) \/ (c = 1 /\ db p = DbAbandoned)
     | None => db p = DbConnecting \/ db p = DbConnected
     end.

(** A process whose connection attempt has just been rejected with [err]:
    the catch handler has logged and exited. *)
Definition rejected (p : process) (err : jsval) : process :=
  {| stack := stack p; connect_calls := connect_calls p; db := DbFailed;
     listen_call := listen_call p; listening := listening p;
     console := console p ++ [[JStr "Cannot connect to the database!"; err]];
     exitCode := exitCode p;
     exited := Some (default 0 (exitCode p));
     stderr := stderr p; app_env := app_env p |}.

(** The process right after the connection attempt has been rejected with
    [err], in the state reached by the events [tr]. *)
Definition after_failure (env : gmap string string) (tr : list event)
  (err : jsval) : process :=
  fst (react (run (boot env) tr) (DbRejected err)).

(** What the environment says about the port: nothing, and then [n] is the
    default, or the decimal numeral of the port [n]. *)
Definition port_setting (env : gmap string string) (n : Z) : Prop :=
  (env !! "PORT" = None /\ n = 8080)
  \/ (0 <= n <= 65535 /\ env !! "PORT" = Some (Z_to_string n)).

(** The process right after the connection attempt has succeeded, and right
    after the bind has completed, in the state reached by the events [tr]. *)
Definition after_connect (env : gmap string string) (tr : list event)
  : process :=
  fst (react (run (boot env) tr) DbResolved).

Definition after_bind (env : gmap string string) (tr : list event)
  : process :=
  fst (react (run (boot env) tr) Bound).

(** The request as the routes get it, after both body parsers. *)
Definition parsed_request (rq : request) : option request :=
  match json_body rq with
  | Pass rq1 =>
      match urlencoded_body true rq1 with
      | Pass rq2 => Some rq2
      | Refuse _ _ => None
      end
  | Refuse _ _ => None
  end.

(** Whether the welcome route takes the request. *)
Definition welcome_route_takes (rq : request) : bool :=
  method_matches GET rq && path_matches "/" (req_path rq).

(** Whether a request is conditional: it carries a validator, in
    If-None-Match or in If-Modified-Since. *)
Definition conditional (rq : request) : bool :=
  present (req_headers rq !! "if-modified-since")
  || present (req_headers rq !! "if-none-match").

(** ** Decimal numerals read back *)

Lemma digits_acc_of_uint (d : Decimal.uint) (acc : nat) :
  digits_acc (NilEmpty.string_of_uint d) (Z.of_nat acc)
  = Some (Z.of_nat (Nat.of_uint_acc d acc)).
Proof.
  revert acc.
  induction d as [|d IH|d IH|d IH|d IH|d IH|d IH|d IH|d IH|d IH|d IH];
    intros acc; [reflexivity|..];
    cbn [NilEmpty.string_of_uint digits_acc Nat.of_uint_acc];
    match goal with
    | |- context [digit_of ?c] =>
        let v := eval vm_compute in (digit_of c) in change (digit_of c) with v
    end;
    rewrite <- IH; f_equal; rewrite Nat.tail_mul_spec; lia.
Qed.

Lemma to_uint_nonnil (n : nat) : Nat.to_uint n <> Decimal.Nil.
Proof.
  rewrite <- (DecimalNat.Unsigned.of_to n) at 1.
  rewrite DecimalNat.Unsigned.to_of.
  apply DecimalFacts.unorm_nonnil.
Qed.

Lemma decimal_of_nat_to_string (n : nat) :
  decimal_of_string (nat_to_string n) = Some (Z.of_nat n).
Proof.
  unfold nat_to_string, NilZero.string_of_uint.
  pose proof (to_uint_nonnil n) as Hnil.
  pose proof (digits_acc_of_uint (Nat.to_uint n) 0) as Hd.
  change (Nat.of_uint_acc (Nat.to_uint n) 0) with (Nat.of_uint (Nat.to_uint n)) in Hd.
  rewrite DecimalNat.Unsigned.of_to in Hd.
  destruct (Nat.to_uint n) eqn:E; try congruence; exact Hd.
Qed.

(** A port written out in decimal is read back as itself. *)
Lemma tcp_port_of_decimal (n : Z) :
  0 <= n <= 65535 -> tcp_port (JStr (Z_to_string n)) = Some n.
Proof.
  intros [Hlo Hhi]. unfold tcp_port, Z_to_string.
  destruct (Z.ltb_spec n 0) as [Hneg|_]; [lia|].
  rewrite decimal_of_nat_to_string, Z2Nat.id by lia.
  destruct (Z.leb_spec n 65535); [reflexivity|lia].
Qed.

Lemma Z_to_string_nonempty (n : Z) : 0 <= n -> Z_to_string n <> "".
Proof.
  intros Hn E. pose proof (decimal_of_nat_to_string (Z.to_nat n)) as H.
  unfold Z_to_string in E. destruct (Z.ltb_spec n 0); [lia|].
  rewrite E in H. discriminate H.
Qed.

(** ** The script *)

Lemma push_all (ls : list layer) (p : process) :
  fold_left (fun q l => push_layer l q) ls p
  = {| stack := stack p ++ ls; connect_calls := connect_calls p; db := db p;
       listen_call := listen_call p; listening := listening p;
       console := console p; exitCode := exitCode p; exited := exited p;
       stderr := stderr p; app_env := app_env p |}.
Proof.
  revert p. induction ls as [|l ls IH]; intros p; cbn [fold_left].
  - rewrite app_nil_r. destruct p; reflexivity.
  - rewrite IH. cbn. rewrite <- app_assoc. reflexivity.
Qed.

(** The state the script leaves behind. *)
Lemma boot_eq (env : gmap string string) :
  boot env
  = {| stack := Use (Cors cors_defaults) :: Use JsonParser
                :: Use (UrlencodedParser true) :: Route GET "/" root_handler
                :: tutorial_routes;
       connect_calls := [(db_url, connect_options)];
       db := DbConnecting;
       listen_call := Some (js_or (env_get env "PORT") (JNum 8080), "0.0.0.0");
       listening := false; console := []; exitCode := None; exited := None;
       stderr := [];
       app_env :=
         js_to_string (js_or (env_get env "NODE_ENV") (JStr "development")) |}.
Proof.
  unfold boot, server_js, seq, mount_routes. cbn.
  rewrite push_all. cbn. reflexivity.
Qed.

(** The script with the runtime's check of the port. *)
Lemma start_eq (env : gmap string string) :
  (listen_target (chosen_port env) = BadPort
   /\ start env = uncaught (JStr "ERR_SOCKET_BAD_PORT") (boot env))
  \/ (listen_target (chosen_port env) <> BadPort /\ start env = boot env).
Proof.
  unfold start. destruct (listen_target (chosen_port env)); auto;
    right; split; congruence.
Qed.

(** The port of a setting is the port [listen] reads. *)
Lemma listen_target_of_setting (env : gmap string string) (n : Z) :
  port_setting env n -> 0 < n ->
  listen_target (chosen_port env) = Port n.
Proof.
  intros Hset Hpos. unfold chosen_port, env_get.
  destruct Hset as [[Hnone ->]|[Hn Hsome]].
  - rewrite Hnone. reflexivity.
  - rewrite Hsome. unfold js_or, truthy.
    destruct (String.eqb_spec (Z_to_string n) "") as [E|_].
    + exfalso. apply (Z_to_string_nonempty n); [lia|exact E].
    + cbn [negb listen_target]. unfold Z_to_string.
      destruct (Z.ltb_spec n 0) as [Hneg|_]; [lia|].
      rewrite decimal_of_nat_to_string, Z2Nat.id by lia.
      destruct (Z.eqb_spec n 0); [lia|].
      destruct (Z.leb_spec n 65535); [reflexivity|lia].
Qed.

(** ** Events *)

(** Runs a callback on a process known to be alive. *)
Ltac run_callback Hx :=
  unfold on_connected, on_connect_error, on_listening, seq;
  cbn; rewrite ?Hx; cbn.

(** Cases on the error of a request, in the goal. *)
Ltac case_logged :=
  unfold log_request_error;
  match goal with
  | |- context [dispatch_error ?s ?d ?rq ?rs] =>
      destruct (dispatch_error s d rq rs)
  end;
  [match goal with
   | |- context [String.eqb ?a ?b] => destruct (String.eqb a b)
   end|].

Lemma react_exited (p : process) (e : event) (c : Z) :
  exited p = Some c -> react p e = (p, None).
Proof. intros H. unfold react. rewrite H. reflexivity. Qed.

Lemma run_exited (p : process) (tr : list event) (c : Z) :
  exited p = Some c -> run p tr = p.
Proof.
  intros H. induction tr as [|e tr IH]; [reflexivity|].
  cbn [run]. rewrite (react_exited p e c H). exact IH.
Qed.

Lemma run_app (p : process) (tr1 tr2 : list event) :
  run p (tr1 ++ tr2) = run (run p tr1) tr2.
Proof.
  revert p. induction tr1 as [|e tr1 IH]; intros p; [reflexivity|].
  cbn [run app]. apply IH.
Qed.

Lemma react_rejected (p : process) (err : jsval) :
  exited p = None -> db p = DbConnecting ->
  react p (DbRejected err) = (rejected p err, None).
Proof.
  intros Hx Hd. unfold react. rewrite Hx, Hd.
  run_callback Hx. reflexivity.
Qed.

Lemma react_same_setup (p : process) (e : event) :
  same_setup p (fst (react p e)).
Proof.
  unfold same_setup, react.
  destruct (exited p) eqn:Hx; [repeat split|].
  destruct e as [|err| |err|rq].
  - destruct (db p); run_callback Hx; repeat split.
  - destruct (db p); run_callback Hx; repeat split.
  - destruct (listen_call p) as [[PORT host]|] eqn:Hl;
      [|repeat split; cbn; congruence].
    destruct (listening p); run_callback Hx; repeat split; congruence.
  - destruct (listen_call p) as [[PORT host]|] eqn:Hl, (listening p), (db p);
      cbn; repeat split; congruence.
  - destruct (listening p); [|repeat split]. cbn [fst].
    case_logged; repeat split.
Qed.

Lemma run_same_setup (p : process) (tr : list event) :
  same_setup p (run p tr).
Proof.
  revert p. induction tr as [|e tr IH]; intros p; cbn [run].
  - repeat split.
  - destruct (react_same_setup p e) as (H1 & H2 & H3 & H4).
    destruct (IH (fst (react p e))) as (K1 & K2 & K3 & K4).
    repeat split; congruence.
Qed.

Lemma sound_boot (env : gmap string string) : sound (boot env).
Proof. rewrite boot_eq. split; [reflexivity|]. cbn. left. reflexivity. Qed.


Lemma sound_react (p : process) (e : event) :
  sound p -> sound (fst (react p e)).
Proof.
  intros [Hcode Hp]. unfold sound, react in *.
  destruct (exited p) eqn:Hx; cbn [fst]; [rewrite Hx; auto|].
  destruct e as [|err| |err|rq].
  - destruct (db p) eqn:Hd; run_callback Hx; rewrite ?Hx, ?Hd; auto.
  - destruct (db p) eqn:Hd; run_callback Hx; rewrite ?Hx, ?Hd, ?Hcode; auto.
  - destruct (listen_call p) as [[PORT host]|]; cbn [fst]; [|rewrite Hx; auto].
    destruct (listening p); run_callback Hx; rewrite ?Hx; auto.
  - destruct (listen_call p) as [[PORT host]|], (listening p), (db p) eqn:Hd;
      cbn; rewrite ?Hx, ?Hd; auto.
  - destruct (listening p); cbn [fst]; [|rewrite Hx; auto].
    case_logged; cbn; rewrite Hx; auto.
Qed.

Lemma sound_run (p : process) (tr : list event) :
  sound p -> sound (run p tr).
Proof.
  revert p. induction tr as [|e tr IH]; intros p Hp; cbn [run]; [exact Hp|].
  apply IH, sound_react, Hp.
Qed.

(** ** Sending *)

Lemma stringify_welcome : stringify welcome = Some welcome_text.
Proof. reflexivity. Qed.




(** A request without a validator is never fresh. *)
Lemma unconditional_not_fresh (rq : request) (rs : response) :
  conditional rq = false -> req_fresh rq rs = false.
Proof.
  unfold conditional, req_fresh, fresh. intros H.
  apply orb_false_elim in H as [H1 H2]. rewrite H1, H2. cbn [negb andb].
  destruct (req_method rq); try reflexivity;
    destruct ((200 <=? res_status rs) && (res_status rs <? 300)
              || (res_status rs =? 304)); reflexivity.
Qed.

(** An unconditional GET on a response that stands at 200 is sent whole. *)
Lemma send_end_whole (body : string) (rq : request) (rs : response) :
  req_method rq = GET -> conditional rq = false -> res_status rs = 200 ->
  send_end body rq rs = set_body body rs.
Proof.
  intros Hm Hc Hs. unfold send_end.
  rewrite (unconditional_not_fresh rq rs Hc), Hs, Hm.
  cbn [Z.eqb Pos.eqb orb]. rewrite Hs. reflexivity.
Qed.

(** [send_end] and [res.json] only touch the content headers and the tag. *)
Lemma send_end_keeps (k body : string) (rq : request) (rs : response) :
  k <> "content-type" -> k <> "content-length" -> k <> "transfer-encoding" ->
  res_headers (send_end body rq rs) !! k = res_headers rs !! k.
Proof.
  intros K1 K2 K3. unfold send_end.
  destruct (req_fresh rq rs); cbn [set_status res_status];
    repeat match goal with
           | |- context [if ?b then _ else _] => destruct b
           end;
    destruct (req_method rq);
    cbn [res_headers res_status set_header remove_header set_status set_body];
    repeat first [rewrite lookup_delete_ne by congruence
                 |rewrite lookup_insert_ne by congruence];
    reflexivity.
Qed.

Lemma res_json_keeps (k : string) (v : jsval) (rq : request) (rs : response) :
  k <> "content-type" -> k <> "content-length" -> k <> "transfer-encoding" ->
  k <> "etag" ->
  res_headers (res_json v rq rs) !! k = res_headers rs !! k.
Proof.
  intros K1 K2 K3 K4. unfold res_json.
  destruct (stringify v); rewrite send_end_keeps by assumption;
    repeat match goal with
           | |- context [if ?b then _ else _] => destruct b
           end;
    cbn [res_headers res_status set_header remove_header set_status set_body];
    rewrite ?lookup_insert_ne by congruence; reflexivity.
Qed.

(** The welcome, sent whole. *)
Lemma res_json_welcome (rq : request) (rs : response) :
  req_method rq = GET -> conditional rq = false -> res_status rs = 200 ->
  res_headers rs !! "content-type" = None ->
  res_status (res_json welcome rq rs) = 200
  /\ res_body (res_json welcome rq rs) = welcome_text
  /\ res_headers (res_json welcome rq rs) !! "content-type"
     = Some "application/json; charset=utf-8".
Proof.
  intros Hm Hc Hs Ht. unfold res_json.
  rewrite stringify_welcome, Ht. cbn [present].
  rewrite send_end_whole; [|assumption|assumption|].
  - destruct (_ || _);
      cbn [res_headers res_status res_body set_header set_body];
      rewrite ?Hs; rewrite ?lookup_insert_ne by discriminate;
      rewrite lookup_insert_eq; auto.
  - destruct (_ || _); cbn [res_status set_header]; exact Hs.
Qed.

(** ** Requests *)

Lemma json_body_pass (rq rq' : request) :
  json_body rq = Pass rq' ->
  req_method rq' = req_method rq /\ req_path rq' = req_path rq
  /\ req_headers rq' = req_headers rq.
Proof.
  unfold json_body. intros H.
  repeat match type of H with
         | (if ?b then _ else _) = _ => destruct b
         | match ?x with _ => _ end = _ => destruct x
         end;
    inversion H; subst; repeat split; reflexivity.
Qed.

Lemma urlencoded_body_pass (extended : bool) (rq rq' : request) :
  urlencoded_body extended rq = Pass rq' ->
  req_method rq' = req_method rq /\ req_path rq' = req_path rq
  /\ req_headers rq' = req_headers rq.
Proof.
  unfold urlencoded_body. intros H.
  repeat match type of H with
         | (if ?b then _ else _) = _ => destruct b
         | match ?x with _ => _ end = _ => destruct x
         end;
    inversion H; subst; repeat split; reflexivity.
Qed.

(** The body parsers leave the method, the path and the headers alone. *)
Lemma parsed_request_same (rq rq2 : request) :
  parsed_request rq = Some rq2 ->
  req_method rq2 = req_method rq /\ req_path rq2 = req_path rq
  /\ req_headers rq2 = req_headers rq.
Proof.
  unfold parsed_request. intros H.
  destruct (json_body rq) as [rq1|] eqn:Hj; [|discriminate].
  destruct (urlencoded_body true rq1) as [rq'|] eqn:Hu; [|discriminate].
  injection H as ->.
  destruct (json_body_pass _ _ Hj) as (Hm1 & Hp1 & Hh1).
  destruct (urlencoded_body_pass _ _ _ Hu) as (Hm2 & Hp2 & Hh2).
  repeat split; congruence.
Qed.

Lemma parsers_accept_parsed (rq : request) :
  parsers_accept rq = true -> exists rq2, parsed_request rq = Some rq2.
Proof.
  unfold parsers_accept, parsed_request.
  destruct (json_body rq) as [rq1|]; [|discriminate].
  destruct (urlencoded_body true rq1) as [rq2|]; [eauto|discriminate].
Qed.

(** A request without a body goes through both body parsers. *)
Lemma parsers_accept_no_body (rq : request) :
  req_raw rq = None -> parsers_accept rq = true.
Proof.
  intros Hraw. unfold parsers_accept, json_body.
  destruct (req_parsed rq) eqn:Hparsed.
  - unfold urlencoded_body. rewrite Hparsed. reflexivity.
  - cbn. rewrite Hraw. unfold urlencoded_body. cbn. rewrite Hraw. reflexivity.
Qed.

(** The default cross-origin policy on anything but a preflight. *)
Lemma cors_defaults_pass (rq : request) (rs : response) :
  req_method rq <> OPTIONS ->
  cors_run cors_defaults rq rs
  = Next rq (set_header "access-control-allow-origin" "*" rs).
Proof.
  intros H. unfold cors_run.
  destruct (req_method rq); try reflexivity. congruence.
Qed.

Lemma cors_defaults_get (rq : request) (rs : response) :
  req_method rq = GET ->
  cors_run cors_defaults rq rs
  = Next rq (set_header "access-control-allow-origin" "*" rs).
Proof. intros H. apply cors_defaults_pass. congruence. Qed.

(** An accepted [GET /] stops at the welcome route, whatever comes after it
    on the stack and whatever the connection is doing. *)
Lemma dispatch_welcome (rest : list layer) (d : db_state)
  (rq rq2 : request) :
  req_method rq = GET -> req_path rq = "/" ->
  parsed_request rq = Some rq2 ->
  dispatch (Use (Cors cors_defaults) :: Use JsonParser
            :: Use (UrlencodedParser true) :: Route GET "/" root_handler
            :: rest) d rq fresh_response
  = res_json welcome rq2
      (set_header "access-control-allow-origin" "*" fresh_response).
Proof.
  intros Hm Hp Hparsed.
  destruct (parsed_request_same _ _ Hparsed) as (Hm2 & Hp2 & _).
  unfold parsed_request in Hparsed.
  cbn [dispatch run_layer run_middleware].
  rewrite (cors_defaults_get _ _ Hm).
  destruct (json_body rq) as [rq1|] eqn:Hj; [|discriminate].
  destruct (urlencoded_body true rq1) as [rq'|] eqn:Hu; [|discriminate].
  injection Hparsed as ->.
  cbn [body_parser]. rewrite Hu. cbn [body_parser].
  unfold method_matches. rewrite Hp2, Hp, Hm2, Hm. reflexivity.
Qed.

(** Any [GET /], accepted or refused, leaves with the header the
    cross-origin middleware has set. *)
Lemma dispatch_root_allow_origin (rest : list layer) (d : db_state)
  (rq : request) :
  req_method rq = GET -> req_path rq = "/" ->
  res_headers
    (dispatch (Use (Cors cors_defaults) :: Use JsonParser
               :: Use (UrlencodedParser true) :: Route GET "/" root_handler
               :: rest) d rq fresh_response)
  !! "access-control-allow-origin" = Some "*".
Proof.
  intros Hm Hp.
  cbn [dispatch run_layer run_middleware].
  rewrite (cors_defaults_get _ _ Hm).
  destruct (json_body rq) as [rq1|st1 rq1] eqn:Hj; cbn [body_parser];
    [|reflexivity].
  destruct (urlencoded_body true rq1) as [rq2|st2 rq2] eqn:Hu;
    cbn [body_parser]; [|reflexivity].
  destruct (json_body_pass _ _ Hj) as (Hm1 & Hp1 & _).
  destruct (urlencoded_body_pass _ _ _ Hu) as (Hm2 & Hp2 & _).
  unfold method_matches. rewrite Hp2, Hp1, Hp, Hm2, Hm1, Hm.
  change ((method_eqb GET GET || method_eqb GET HEAD && method_eqb GET GET)
          && path_matches "/" "/") with true.
  cbv iota. unfold root_handler.
  rewrite res_json_keeps by discriminate. reflexivity.
Qed.

(** ** The properties of the server *)

Lemma start_same_setup (env : gmap string string) :
  same_setup (boot env) (start env).
Proof.
  destruct (start_eq env) as [[_ ->]|[_ ->]]; repeat split.
Qed.

(** The stack of every state the started process goes through. *)
Lemma run_start_stack (env : gmap string string) (tr : list event) :
  stack (run (start env) tr)
  = Use (Cors cors_defaults) :: Use JsonParser :: Use (UrlencodedParser true)
    :: Route GET "/" root_handler :: tutorial_routes.
Proof.
  destruct (run_same_setup (start env) tr) as (Hs & _).
  destruct (start_same_setup env) as (Hb & _).
  rewrite Hs, Hb, boot_eq. reflexivity.
Qed.

Lemma run_start_listen_call (env : gmap string string) (tr : list event) :
  listen_call (run (start env) tr) = Some (chosen_port env, "0.0.0.0").
Proof.
  destruct (run_same_setup (start env) tr) as (_ & _ & Hl & _).
  destruct (start_same_setup env) as (_ & _ & Hb & _).
  rewrite Hl, Hb, boot_eq. reflexivity.
Qed.

(** C1, as amended: once the server is listening, every [GET /] request that
    the body parsers let through and that is not conditional (it carries
    neither If-None-Match nor If-Modified-Since) is answered with status 200
    and the JSON body [{"message": "Welcome to Test application."}], whether
    the database connection has succeeded, is pending or was never
    attempted. *)
Theorem welcome_on_accepted_get_root (env : gmap string string)
  (tr : list event) (rq : request) :
  listening (run (start env) tr) = true ->
  exited (run (start env) tr) = None ->
  req_method rq = GET -> req_path rq = "/" ->
  parsers_accept rq = true ->
  conditional rq = false ->
  exists rs,
    snd (react (run (start env) tr) (Incoming rq)) = Some rs
    /\ res_status rs = 200
    /\ res_body rs = welcome_text
    /\ res_headers rs !! "content-type" = Some "application/json; charset=utf-8"
    /\ forall d, dispatch (stack (run (start env) tr)) d rq fresh_response = rs.
Proof.
  intros Hl Hx Hm Hp Hacc Hcond.
  destruct (parsers_accept_parsed rq Hacc) as [rq2 Hparsed].
  destruct (parsed_request_same _ _ Hparsed) as (Hm2 & _ & Hh2).
  assert (Hcond2 : conditional rq2 = false).
  { unfold conditional. rewrite Hh2. exact Hcond. }
  destruct (res_json_welcome rq2
              (set_header "access-control-allow-origin" "*" fresh_response))
    as (Hstatus & Hbody & Htype);
    [congruence|exact Hcond2|reflexivity|reflexivity|].
  exists (res_json welcome rq2
            (set_header "access-control-allow-origin" "*" fresh_response)).
  split; [|split; [exact Hstatus|split; [exact Hbody|split; [exact Htype|]]]].
  - unfold react. rewrite Hx, Hl, run_start_stack. cbn [snd]. f_equal.
    now apply dispatch_welcome.
  - intros d. rewrite run_start_stack. now apply dispatch_welcome.
Qed.

(** C2, as amended: when the connection attempt fails, the process logs the
    error and exits in the same turn, with status 0, the status of an
    [exit()] without a code; nothing is retried, and no event is answered
    or logged afterwards. *)
Theorem connect_failure_exits (env : gmap string string) (tr : list event)
  (err : jsval) (later : list event) (e : event) :
  db (run (boot env) tr) = DbConnecting ->
  console (after_failure env tr err)
  = (console (run (boot env) tr)
     ++ [[JStr "Cannot connect to the database!"; err]])%list
  /\ exited (after_failure env tr err) = Some 0
  /\ db (after_failure env tr err) = DbFailed
  /\ connect_calls (after_failure env tr err) = [(db_url, connect_options)]
  /\ run (after_failure env tr err) later = after_failure env tr err
  /\ snd (react (after_failure env tr err) e) = None.
Proof.
  intros Hd.
  pose proof (sound_run _ tr (sound_boot env)) as [Hcode Hsound].
  destruct (run_same_setup (boot env) tr) as (_ & Hc & _).
  rewrite boot_eq in Hc at 2. cbn [connect_calls] in Hc.
  destruct (exited (run (boot env) tr)) eqn:Hx.
  { destruct Hsound as [[_ Hf]|[_ Hf]]; congruence. }
  unfold after_failure.
  rewrite (react_rejected _ err Hx Hd) in *. cbn [fst].
  assert (Hexit : exited (rejected (run (boot env) tr) err) = Some 0).
  { unfold rejected. cbn [exited]. rewrite Hcode. reflexivity. }
  split; [reflexivity|].
  split; [exact Hexit|].
  split; [reflexivity|].
  split; [exact Hc|].
  split; [exact (run_exited _ later 0 Hexit)|].
  rewrite (react_exited _ e 0 Hexit). reflexivity.
Qed.

(** C3: the script asks for the bind as its last statement, after every
    registration and without waiting for the connection, which is still
    pending then; so the server can be listening while the database is
    connecting, and become connected later. *)
Theorem listening_before_connected (env : gmap string string) :
  (exists q,
     boot env = app_listen (chosen_port env) "0.0.0.0" q
     /\ stack q = stack (boot env)
     /\ listen_call q = None /\ db q = DbConnecting /\ exited q = None)
  /\ listening (boot env) = false
  /\ listening (run (boot env) [Bound]) = true
  /\ db (run (boot env) [Bound]) = DbConnecting
  /\ exited (run (boot env) [Bound]) = None
  /\ listening (run (boot env) [Bound; DbResolved]) = true
  /\ db (run (boot env) [Bound; DbResolved]) = DbConnected.
Proof.
  rewrite !boot_eq. split.
  - eexists {| stack := _; connect_calls := _; db := _; listen_call := None;
               listening := _; console := _; exitCode := _; exited := _ |}.
    split; [reflexivity|]. repeat split.
  - repeat split.
Qed.

(** C4: the server binds all interfaces, [0.0.0.0], on the port that the
    PORT variable spells, and on 8080 when PORT is unset: nothing is bound
    before the bind completes, that port is bound once it has, and a
    process that is alive and listening is bound to it whatever else has
    happened. *)
Theorem port_from_environment (env : gmap string string) (n : Z)
  (tr : list event) :
  port_setting env n -> 0 < n ->
  bound_socket (start env) = None
  /\ bound_socket (run (start env) [Bound]) = Some (TcpSocket "0.0.0.0" n)
  /\ (listening (run (start env) tr) = true ->
      exited (run (start env) tr) = None ->
      bound_socket (run (start env) tr) = Some (TcpSocket "0.0.0.0" n)).
Proof.
  intros Hset Hpos.
  pose proof (listen_target_of_setting env n Hset Hpos) as Htarget.
  assert (Halive : forall p,
             listening p = true -> exited p = None ->
             listen_call p = Some (chosen_port env, "0.0.0.0") ->
             bound_socket p = Some (TcpSocket "0.0.0.0" n)).
  { intros p Hl Hx Hc. unfold bound_socket.
    rewrite Hx, Hl, Hc, Htarget. reflexivity. }
  destruct (start_eq env) as [[Hbad _]|[_ Hstart]]; [congruence|].
  split; [|split].
  - rewrite Hstart, boot_eq. reflexivity.
  - apply Halive; [| |apply run_start_listen_call];
      rewrite Hstart, boot_eq; reflexivity.
  - intros Hl Hx. apply Halive; [exact Hl|exact Hx|].
    apply run_start_listen_call.
Qed.

(** C5: the stack starts with the cross-origin middleware, then the JSON
    body parser, then the URL-encoded body parser in its extended mode; the
    welcome route and the routes of the route module come after them, so no
    route sits before the third position. *)
Theorem middleware_order (env : gmap string string) :
  stack (boot env)
  = Use (Cors cors_defaults) :: Use JsonParser :: Use (UrlencodedParser true)
    :: Route GET "/" root_handler :: tutorial_routes
  /\ (forall (i : nat) m path h,
        stack (boot env) !! i = Some (Route m path h) -> (3 <= i)%nat).
Proof.
  rewrite boot_eq. cbn [stack]. split; [reflexivity|].
  intros i m path h Hi.
  destruct i as [|[|[|i]]]; cbn in Hi; try discriminate; lia.
Qed.

(** C6: whatever origin a [GET /] request comes from, its response carries
    the header [Access-Control-Allow-Origin: *]; no list of origins is
    consulted. *)
Theorem any_origin_allowed (env : gmap string string) (tr : list event)
  (rq : request) :
  listening (run (boot env) tr) = true ->
  exited (run (boot env) tr) = None ->
  req_method rq = GET -> req_path rq = "/" ->
  exists rs,
    snd (react (run (boot env) tr) (Incoming rq)) = Some rs
    /\ res_headers rs !! "access-control-allow-origin" = Some "*".
Proof.
  intros Hl Hx Hm Hp.
  destruct (run_same_setup (boot env) tr) as (Hs & _).
  rewrite boot_eq in Hs at 2. cbn [stack] in Hs.
  unfold react. rewrite Hx, Hl, Hs. cbn [snd].
  eexists. split; [reflexivity|].
  now apply dispatch_root_allow_origin.
Qed.

(** C7: the one connect call the process ever makes passes the database
    URL and the options [useNewUrlParser: true] and
    [useUnifiedTopology: true]. *)
Theorem connect_options_requested (env : gmap string string)
  (tr : list event) :
  connect_calls (run (boot env) tr) = [(db_url, connect_options)]
  /\ js_get connect_options "useNewUrlParser" = JBool true
  /\ js_get connect_options "useUnifiedTopology" = JBool true.
Proof.
  destruct (run_same_setup (boot env) tr) as (_ & Hc & _).
  rewrite boot_eq in Hc at 2. cbn [connect_calls] in Hc.
  repeat split. exact Hc.
Qed.


(** C9, as amended: the default port is taken exactly when PORT is unset or
    empty, the only falsy values a variable of the environment can have;
    any other string, ["0"] included, is passed to [listen] as it is, and
    ["0"] asks for port 0, not for 8080. *)
Theorem port_fallback_on_falsy (env : gmap string string) :
  (listen_call (boot env) = Some (JNum 8080, "0.0.0.0")
   <-> env !! "PORT" = None \/ env !! "PORT" = Some "")
  /\ (forall s, env !! "PORT" = Some s -> s <> "" ->
      listen_call (boot env) = Some (JStr s, "0.0.0.0"))
  /\ (env !! "PORT" = Some "0" ->
      requested_endpoint (boot env) = Some (0, "0.0.0.0")).
Proof.
  unfold requested_endpoint. rewrite boot_eq. cbn [listen_call]. unfold env_get.
  split; [split|split].
  - destruct (env !! "PORT") as [s|]; [|auto].
    unfold js_or, truthy.
    destruct (String.eqb_spec s "") as [->|Hne]; cbn [negb]; [auto|].
    intros H. discriminate H.
  - intros [->| ->]; reflexivity.
  - intros s -> Hne. unfold js_or, truthy.
    destruct (String.eqb_spec s ""); [contradiction|reflexivity].
  - intros ->. reflexivity.
Qed.


(** ** The callbacks *)

Lemma react_resolved (p : process) :
  exited p = None -> db p = DbConnecting ->
  react p DbResolved
  = ({| stack := stack p; connect_calls := connect_calls p;
        db := DbConnected; listen_call := listen_call p;
        listening := listening p;
        console := console p ++ [[JStr "Connected to the database!"]];
        exitCode := exitCode p; exited := None;
        stderr := stderr p; app_env := app_env p |}, None).
Proof.
  intros Hx Hd. unfold react. rewrite Hx, Hd.
  run_callback Hx. unfold console_log, set_db. cbn. rewrite Hx. reflexivity.
Qed.

Lemma react_bound (p : process) (PORT : jsval) (host : string) :
  exited p = None -> listening p = false ->
  listen_call p = Some (PORT, host) ->
  react p Bound
  = ({| stack := stack p; connect_calls := connect_calls p; db := db p;
        listen_call := Some (PORT, host); listening := true;
        console :=
          console p
          ++ [[JStr ("Server is running on port " +:+ js_to_string PORT
                     +:+ ".")]];
        exitCode := exitCode p; exited := None;
        stderr := stderr p; app_env := app_env p |}, None).
Proof.
  intros Hx Hl Hc. unfold react. rewrite Hx, Hc, Hl.
  run_callback Hx. unfold console_log, set_listening. cbn.
  rewrite Hx, Hc. reflexivity.
Qed.

(** An established connection is never given up. *)
Lemma connected_react (p : process) (e : event) :
  exited p = None -> db p = DbConnected ->
  exited (fst (react p e)) = None /\ db (fst (react p e)) = DbConnected.
Proof.
  intros Hx Hd. unfold react. rewrite Hx, Hd.
  destruct e as [|err| |err|rq]; cbn [fst]; auto.
  - destruct (listen_call p) as [[PORT host]|]; cbn [fst]; auto.
    destruct (listening p); run_callback Hx; auto.
  - destruct (listen_call p) as [[PORT host]|], (listening p); cbn [fst]; auto.
  - destruct (listening p); cbn [fst]; auto.
    case_logged; cbn; auto.
Qed.

Lemma connected_run (p : process) (tr : list event) :
  exited p = None -> db p = DbConnected ->
  exited (run p tr) = None /\ db (run p tr) = DbConnected.
Proof.
  revert p. induction tr as [|e tr IH]; intros p Hx Hd; cbn [run]; [auto|].
  destruct (connected_react p e Hx Hd) as [Hx' Hd']. now apply IH.
Qed.

(** Only the completion of the bind makes the process listen. *)
Lemma react_keeps_listening (p : process) (e : event) :
  e <> Bound -> listening (fst (react p e)) = listening p.
Proof.
  intros He. unfold react.
  destruct (exited p) eqn:Hx; [reflexivity|].
  destruct e as [|err| |err|rq]; [| |congruence| |].
  - destruct (db p); run_callback Hx; reflexivity.
  - destruct (db p); run_callback Hx; reflexivity.
  - destruct (listen_call p) as [[PORT host]|], (listening p) eqn:Hl, (db p);
      cbn; congruence.
  - destruct (listening p) eqn:Hl; cbn [fst]; [|congruence].
    case_logged; cbn; congruence.
Qed.

(** X1: when the connection attempt succeeds, the process logs
    [Connected to the database!] and nothing else, and from then on no event
    whatever makes it exit or lose the connection: a later failure of the
    database is not noticed. *)
Theorem connect_success_is_final (env : gmap string string)
  (tr later : list event) :
  db (run (boot env) tr) = DbConnecting ->
  console (after_connect env tr)
  = (console (run (boot env) tr)
     ++ [[JStr "Connected to the database!"]])%list
  /\ listening (after_connect env tr) = listening (run (boot env) tr)
  /\ exited (run (after_connect env tr) later) = None
  /\ db (run (after_connect env tr) later) = DbConnected.
Proof.
  intros Hd.
  pose proof (sound_run _ tr (sound_boot env)) as [_ Hsound].
  destruct (exited (run (boot env) tr)) eqn:Hx.
  { destruct Hsound as [[_ Hf]|[_ Hf]]; congruence. }
  unfold after_connect. rewrite (react_resolved _ Hx Hd). cbn [fst].
  split; [reflexivity|]. split; [reflexivity|].
  apply connected_run; reflexivity.
Qed.

(** X2: when the bind completes, the process logs
    [Server is running on port N.] with the port it asked for, the one PORT
    spells or 8080, and starts listening without touching the connection; a
    second report of the bind changes nothing. *)
Theorem bind_logs_port (env : gmap string string) (n : Z) (tr : list event) :
  port_setting env n ->
  listening (run (boot env) tr) = false ->
  exited (run (boot env) tr) = None ->
  console (after_bind env tr)
  = (console (run (boot env) tr)
     ++ [[JStr ("Server is running on port " +:+ Z_to_string n +:+ ".")]])%list
  /\ listening (after_bind env tr) = true
  /\ db (after_bind env tr) = db (run (boot env) tr)
  /\ react (after_bind env tr) Bound = (after_bind env tr, None).
Proof.
  intros Hset Hl Hx.
  destruct (run_same_setup (boot env) tr) as (_ & _ & Hc & _).
  rewrite boot_eq in Hc at 2. cbn [listen_call] in Hc.
  unfold after_bind. rewrite (react_bound _ _ _ Hx Hl Hc). cbn [fst].
  assert (Hs : js_to_string (js_or (env_get env "PORT") (JNum 8080))
               = Z_to_string n).
  { unfold env_get. destruct Hset as [[Hnone ->]|[Hn Hsome]].
    - rewrite Hnone. reflexivity.
    - rewrite Hsome. unfold js_or, truthy.
      destruct (String.eqb_spec (Z_to_string n) "") as [E|_];
        [|reflexivity].
      exfalso. apply (Z_to_string_nonempty n); [lia|exact E]. }
  rewrite Hs. split; [reflexivity|]. split; [reflexivity|].
  split; [reflexivity|].
  unfold react. cbn [exited listen_call listening]. reflexivity.
Qed.

(** X3: as long as the bind has not completed the process answers no
    request, whatever has happened to the connection meanwhile. *)
Theorem no_answer_before_bind (env : gmap string string) (tr : list event)
  (rq : request) :
  Forall (fun e => e <> Bound) tr ->
  listening (run (boot env) tr) = false
  /\ snd (react (run (boot env) tr) (Incoming rq)) = None.
Proof.
  intros Htr.
  assert (Hl : listening (run (boot env) tr) = false).
  { assert (Hb : listening (boot env) = false) by (rewrite boot_eq; reflexivity).
    revert Hb. generalize (boot env).
    induction Htr as [|e tr He _ IH]; intros p Hp; cbn [run]; [exact Hp|].
    apply IH. rewrite (react_keeps_listening p e He). exact Hp. }
  split; [exact Hl|].
  unfold react. rewrite Hl.
  destruct (exited (run (boot env) tr)); reflexivity.
Qed.

(** ** The stack on other requests *)

Lemma welcome_route_takes_parsed (rq rq2 : request) :
  parsed_request rq = Some rq2 ->
  welcome_route_takes rq2 = welcome_route_takes rq.
Proof.
  intros H. destruct (parsed_request_same _ _ H) as (Hm & Hp & _).
  unfold welcome_route_takes, method_matches. rewrite Hm, Hp. reflexivity.
Qed.

(** The answer of the cross-origin middleware to a preflight. *)
Lemma dispatch_preflight (rest : list layer) (d : db_state) (rq : request)
  (rs : response) :
  req_method rq = OPTIONS ->
  dispatch (Use (Cors cors_defaults) :: rest) d rq rs
  = set_header "content-length" "0"
      (set_status 204
         (configure_allowed_headers rq
            (set_header "access-control-allow-methods"
               "GET,HEAD,PUT,PATCH,POST,DELETE"
               (configure_origin cors_defaults rq rs)))).
Proof.
  intros Hm. cbn [dispatch run_layer run_middleware].
  unfold cors_run. rewrite Hm. reflexivity.
Qed.

Lemma preflight_shape (rq : request) :
  let rs :=
    set_header "content-length" "0"
      (set_status 204
         (configure_allowed_headers rq
            (set_header "access-control-allow-methods"
               "GET,HEAD,PUT,PATCH,POST,DELETE"
               (configure_origin cors_defaults rq fresh_response)))) in
  res_status rs = 204
  /\ res_body rs = ""
  /\ res_headers rs !! "access-control-allow-origin" = Some "*"
  /\ res_headers rs !! "access-control-allow-methods"
     = Some "GET,HEAD,PUT,PATCH,POST,DELETE"
  /\ res_headers rs !! "content-length" = Some "0".
Proof.
  unfold configure_allowed_headers, configure_origin.
  cbn [cors_defaults cors_origin].
  destruct (req_headers rq !! "access-control-request-headers") as [hs|];
    [destruct (String.eqb hs "")|];
    repeat apply conj; reflexivity.
Qed.

(** X5: a preflight, an [OPTIONS] request to any path, is answered by the
    cross-origin middleware itself, with 204, an empty body, every origin
    allowed and the default list of methods; neither the body parsers nor
    any route sees it, so the answer depends on nothing else. *)
Theorem preflight_answered_first (env : gmap string string) (tr : list event)
  (rq : request) :
  listening (run (boot env) tr) = true ->
  exited (run (boot env) tr) = None ->
  req_method rq = OPTIONS ->
  exists rs,
    snd (react (run (boot env) tr) (Incoming rq)) = Some rs
    /\ res_status rs = 204
    /\ res_body rs = ""
    /\ res_headers rs !! "access-control-allow-origin" = Some "*"
    /\ res_headers rs !! "access-control-allow-methods"
       = Some "GET,HEAD,PUT,PATCH,POST,DELETE"
    /\ res_headers rs !! "content-length" = Some "0"
    /\ forall d, dispatch (stack (run (boot env) tr)) d rq fresh_response = rs.
Proof.
  intros Hl Hx Hm.
  destruct (run_same_setup (boot env) tr) as (Hs & _).
  rewrite boot_eq in Hs at 2. cbn [stack] in Hs.
  unfold react. rewrite Hx, Hl, Hs. cbn [snd].
  destruct (preflight_shape rq) as (H1 & H2 & H3 & H4 & H5).
  rewrite (dispatch_preflight _ _ _ _ Hm).
  eexists. split; [reflexivity|].
  split; [exact H1|]. split; [exact H2|]. split; [exact H3|].
  split; [exact H4|]. split; [exact H5|].
  intros d. apply (dispatch_preflight _ _ _ _ Hm).
Qed.

(** X7: every other request, one that is no preflight, gets through the body
    parsers and is not for the welcome route, is handed to the layers of the
    route module, in their order, with its body parsed and the cross-origin
    header already set. *)
Theorem other_requests_reach_route_module (env : gmap string string)
  (tr : list event) (rq rq2 : request) :
  listening (run (boot env) tr) = true ->
  exited (run (boot env) tr) = None ->
  req_method rq <> OPTIONS ->
  parsed_request rq = Some rq2 ->
  welcome_route_takes rq = false ->
  snd (react (run (boot env) tr) (Incoming rq))
  = Some (dispatch tutorial_routes (db (run (boot env) tr)) rq2
            (set_header "access-control-allow-origin" "*" fresh_response)).
Proof.
  intros Hl Hx Hm Hparsed Hroute.
  destruct (run_same_setup (boot env) tr) as (Hs & _).
  rewrite boot_eq in Hs at 2. cbn [stack] in Hs.
  unfold react. rewrite Hx, Hl, Hs. cbn [snd]. f_equal.
  cbn [dispatch run_layer run_middleware].
  rewrite (cors_defaults_pass _ _ Hm).
  pose proof (welcome_route_takes_parsed _ _ Hparsed) as Hsame.
  unfold parsed_request in Hparsed.
  destruct (json_body rq) as [rq1|] eqn:Hj; [|discriminate].
  destruct (urlencoded_body true rq1) as [rq'|] eqn:Hu; [|discriminate].
  injection Hparsed as ->. cbn [body_parser]. rewrite Hu. cbn [body_parser].
  unfold welcome_route_takes in Hsame, Hroute.
  rewrite Hsame, Hroute. reflexivity.
Qed.

(** ** The two callbacks together *)

Lemma callbacks_commute (p : process) :
  db (run p [Bound; DbResolved]) = db (run p [DbResolved; Bound])
  /\ listening (run p [Bound; DbResolved])
     = listening (run p [DbResolved; Bound])
  /\ exited (run p [Bound; DbResolved]) = exited (run p [DbResolved; Bound])
  /\ Permutation (console (run p [Bound; DbResolved]))
       (console (run p [DbResolved; Bound])).
Proof.
  destruct p as [st cc d lc l co ec ex se ae].
  destruct ex as [c|]; [repeat apply conj; reflexivity|].
  destruct lc as [[PORT host]|], l, d; cbn;
    repeat apply conj; try reflexivity.
  rewrite <- !app_assoc. apply Permutation_app_head. apply perm_swap.
Qed.

(** X9: the bind and the success of the connection may come in either
    order: the process ends up listening and connected all the same, and
    with the same lines logged, up to their order. *)
Theorem bind_and_connect_commute (env : gmap string string)
  (tr : list event) :
  db (run (boot env) (tr ++ [Bound; DbResolved]))
  = db (run (boot env) (tr ++ [DbResolved; Bound]))
  /\ listening (run (boot env) (tr ++ [Bound; DbResolved]))
     = listening (run (boot env) (tr ++ [DbResolved; Bound]))
  /\ exited (run (boot env) (tr ++ [Bound; DbResolved]))
     = exited (run (boot env) (tr ++ [DbResolved; Bound]))
  /\ Permutation (console (run (boot env) (tr ++ [Bound; DbResolved])))
       (console (run (boot env) (tr ++ [DbResolved; Bound]))).
Proof.
  rewrite !run_app. apply callbacks_commute.
Qed.

End Server.

(** ** The properties at sample inputs *)

Abbreviation sample_boot := (boot (node:=sample_node) sample_url sample_routes).
Abbreviation sample_start :=
  (start (node:=sample_node) sample_url sample_routes).
Abbreviation sample_react := (react (node:=sample_node)).
Abbreviation sample_run := (run (node:=sample_node)).
Abbreviation sample_dispatch := (dispatch (node:=sample_node)).
Abbreviation sample_after_failure :=
  (after_failure (node:=sample_node) sample_url sample_routes).
Abbreviation sample_after_connect :=
  (after_connect (node:=sample_node) sample_url sample_routes).
Abbreviation sample_after_bind :=
  (after_bind (node:=sample_node) sample_url sample_routes).

(** C1 at a sample input: a request from another origin is welcomed while
    the connection is pending, and again once it is established. *)
Lemma welcome_on_accepted_get_root_witness :
  (exists rs,
     snd (sample_react (sample_run (sample_start ∅) [Bound])
            (Incoming (get_root_from "http://a.example"))) = Some rs
     /\ res_status rs = 200
     /\ res_body rs = welcome_text
     /\ res_headers rs !! "content-type"
        = Some "application/json; charset=utf-8"
     /\ forall d,
         sample_dispatch (stack (sample_run (sample_start ∅) [Bound])) d
           (get_root_from "http://a.example") fresh_response = rs)
  /\ (exists rs,
        snd (sample_react (sample_run (sample_start ∅) [DbResolved; Bound])
               (Incoming (plain_request GET "/"))) = Some rs
        /\ res_status rs = 200
        /\ res_body rs = welcome_text
        /\ res_headers rs !! "content-type"
           = Some "application/json; charset=utf-8"
        /\ forall d,
            sample_dispatch
              (stack (sample_run (sample_start ∅) [DbResolved; Bound])) d
              (plain_request GET "/") fresh_response = rs).
Proof.
  split.
  - apply (welcome_on_accepted_get_root (node:=sample_node)
             sample_url sample_routes
             ∅ [Bound] (get_root_from "http://a.example"));
      reflexivity.
  - apply (welcome_on_accepted_get_root (node:=sample_node)
             sample_url sample_routes
             ∅ [DbResolved; Bound] (plain_request GET "/"));
      reflexivity.
Defined.

(** C1 as stated fails, in two ways.  A [GET /] whose body claims to be JSON
    and is not is refused by the body parser with 400 before it reaches the
    route, with the connection pending or established, and whatever the
    parser underneath would have made of the text.  And a [GET /] that asks
    with [If-None-Match: *] whether anything has changed goes through the
    parsers and is answered 304 with an empty body. *)
Lemma get_root_malformed_is_refused :
  listening (sample_run (sample_start ∅) [Bound]) = true
  /\ exited (sample_run (sample_start ∅) [Bound]) = None
  /\ req_method get_root_malformed = GET
  /\ req_path get_root_malformed = "/"
  /\ option_map res_status
       (snd (sample_react (sample_run (sample_start ∅) [Bound])
               (Incoming get_root_malformed))) = Some 400
  /\ option_map res_status
       (snd (react (node:=lenient_node)
               (sample_run (sample_start ∅) [Bound; DbResolved])
               (Incoming get_root_malformed))) = Some 400
  /\ req_method get_root_if_none_match = GET
  /\ req_path get_root_if_none_match = "/"
  /\ parsers_accept (node:=sample_node) get_root_if_none_match = true
  /\ option_map (fun rs => (res_status rs, res_body rs))
       (snd (sample_react (sample_run (sample_start ∅) [Bound])
               (Incoming get_root_if_none_match))) = Some (304, "").
Proof. repeat split. Qed.

(** C2 at a sample input: the connection is refused after the bind. *)
Lemma connect_failure_exits_witness :
  db (sample_run (sample_boot ∅) [Bound]) = DbConnecting
  /\ exited (sample_after_failure ∅ [Bound] (JStr "ECONNREFUSED"))
     = Some 0
  /\ sample_run
       (sample_after_failure ∅ [Bound] (JStr "ECONNREFUSED"))
       [DbResolved; Incoming (plain_request GET "/")]
     = sample_after_failure ∅ [Bound] (JStr "ECONNREFUSED")
  /\ snd (sample_react
            (sample_after_failure ∅ [Bound] (JStr "ECONNREFUSED"))
            (Incoming (plain_request GET "/"))) = None.
Proof.
  split; [reflexivity|].
  destruct (connect_failure_exits (node:=sample_node)
              sample_url sample_routes
              ∅ [Bound] (JStr "ECONNREFUSED")
              [DbResolved; Incoming (plain_request GET "/")]
              (Incoming (plain_request GET "/")) eq_refl)
    as (_ & Hexit & _ & _ & Hrun & Hans).
  split; [exact Hexit|]. split; [exact Hrun|exact Hans].
Defined.

(** C2 as stated fails: the status of the exit is 0. *)
Lemma connect_failure_exit_status_zero :
  db (sample_boot ∅) = DbConnecting
  /\ exited (sample_after_failure ∅ [] (JStr "ECONNREFUSED"))
     = Some 0.
Proof. split; reflexivity. Qed.

(** C4 at sample inputs: PORT unset, and PORT=9090. *)
Lemma port_from_environment_witness :
  bound_socket (node:=sample_node) (sample_run (sample_start ∅) [Bound])
  = Some (TcpSocket "0.0.0.0" 8080)
  /\ bound_socket (node:=sample_node)
       (sample_run (sample_start {["PORT" := "9090"]}) [Bound; DbResolved])
     = Some (TcpSocket "0.0.0.0" 9090).
Proof.
  split.
  - apply (port_from_environment (node:=sample_node)
             sample_url sample_routes ∅ 8080 []).
    + left. split; reflexivity.
    + lia.
  - apply (port_from_environment (node:=sample_node)
             sample_url sample_routes
             {["PORT" := "9090"]} 9090 [Bound; DbResolved]).
    + right. split; [lia|reflexivity].
    + lia.
    + reflexivity.
    + reflexivity.
Defined.

(** C6 at sample inputs: a welcomed request and a refused one both leave
    with the header. *)
Lemma any_origin_allowed_witness :
  (exists rs,
     snd (sample_react (sample_run (sample_boot ∅) [Bound])
            (Incoming (get_root_from "http://a.example"))) = Some rs
     /\ res_headers rs !! "access-control-allow-origin" = Some "*")
  /\ (exists rs,
        snd (sample_react (sample_run (sample_boot ∅) [Bound])
               (Incoming get_root_malformed)) = Some rs
        /\ res_headers rs !! "access-control-allow-origin" = Some "*").
Proof.
  split.
  - apply (any_origin_allowed (node:=sample_node) sample_url sample_routes
             ∅ [Bound] (get_root_from "http://a.example"));
      reflexivity.
  - apply (any_origin_allowed (node:=sample_node) sample_url sample_routes
             ∅ [Bound] get_root_malformed);
      reflexivity.
Defined.



(** C9 at sample inputs: PORT empty, and PORT=3000. *)
Lemma port_fallback_on_falsy_witness :
  listen_call (sample_boot {["PORT" := ""]}) = Some (JNum 8080, "0.0.0.0")
  /\ listen_call (sample_boot {["PORT" := "3000"]})
     = Some (JStr "3000", "0.0.0.0").
Proof.
  split.
  - destruct (port_fallback_on_falsy (node:=sample_node)
                sample_url sample_routes
                {["PORT" := ""]}) as ([_ Hdefault] & _).
    apply Hdefault. right. reflexivity.
  - destruct (port_fallback_on_falsy (node:=sample_node)
                sample_url sample_routes
                {["PORT" := "3000"]}) as (_ & Hkept & _).
    apply Hkept; [reflexivity|discriminate].
Defined.

(** C9 as stated fails: with PORT=0 the server asks for port 0, which is
    not the default. *)
Lemma port_zero_string_is_kept :
  truthy (JStr "0") = true
  /\ listen_call (sample_boot {["PORT" := "0"]}) = Some (JStr "0", "0.0.0.0")
  /\ requested_endpoint (sample_boot {["PORT" := "0"]})
     = Some (0, "0.0.0.0").
Proof. repeat split. Qed.



(** X1 at a sample input: the connection comes up after the bind; a later
    rejection and a request change nothing about it. *)
Lemma connect_success_is_final_witness :
  db (sample_run (sample_boot ∅) [Bound]) = DbConnecting
  /\ console (sample_after_connect ∅ [Bound])
     = [[JStr "Server is running on port 8080."];
        [JStr "Connected to the database!"]]
  /\ exited
       (sample_run
          (sample_after_connect ∅ [Bound])
          [DbRejected (JStr "ECONNRESET"); Incoming (plain_request GET "/")])
     = None.
Proof.
  split; [reflexivity|].
  destruct (connect_success_is_final (node:=sample_node)
              sample_url sample_routes
              ∅ [Bound]
              [DbRejected (JStr "ECONNRESET"); Incoming (plain_request GET "/")]
              eq_refl)
    as (Hlog & _ & Hexit & _).
  split; [exact Hlog|exact Hexit].
Defined.

(** X2 at a sample input: PORT=9090, the bind completing after the
    connection. *)
Lemma bind_logs_port_witness :
  console (sample_after_bind {["PORT" := "9090"]} [DbResolved])
  = [[JStr "Connected to the database!"];
     [JStr "Server is running on port 9090."]]
  /\ listening (sample_after_bind {["PORT" := "9090"]} [DbResolved])
     = true.
Proof.
  destruct (bind_logs_port (node:=sample_node) sample_url sample_routes
              {["PORT" := "9090"]} 9090 [DbResolved])
    as (Hlog & Hlisten & _).
  - right. split; [lia|reflexivity].
  - reflexivity.
  - reflexivity.
  - split; [exact Hlog|exact Hlisten].
Defined.

(** X3 at a sample input: a request that arrives after the connection and
    before the bind. *)
Lemma no_answer_before_bind_witness :
  listening (sample_run (sample_boot ∅)
               [DbResolved; Incoming (plain_request GET "/")]) = false
  /\ snd (sample_react
            (sample_run (sample_boot ∅)
               [DbResolved; Incoming (plain_request GET "/")])
            (Incoming (plain_request GET "/"))) = None.
Proof.
  apply (no_answer_before_bind (node:=sample_node) sample_url sample_routes
           ∅ [DbResolved; Incoming (plain_request GET "/")]
           (plain_request GET "/")).
  repeat constructor; discriminate.
Defined.

(** X5 at a sample input: the preflight of a JSON [POST] from another
    origin, while the connection is pending. *)
Lemma preflight_answered_first_witness :
  exists rs,
    snd (sample_react (sample_run (sample_boot ∅) [Bound])
           (Incoming preflight_request)) = Some rs
    /\ res_status rs = 204
    /\ res_body rs = ""
    /\ res_headers rs !! "access-control-allow-origin" = Some "*"
    /\ res_headers rs !! "access-control-allow-methods"
       = Some "GET,HEAD,PUT,PATCH,POST,DELETE"
    /\ res_headers rs !! "content-length" = Some "0"
    /\ forall d,
        sample_dispatch (stack (sample_run (sample_boot ∅) [Bound])) d
          preflight_request fresh_response = rs.
Proof.
  apply (preflight_answered_first (node:=sample_node)
           sample_url sample_routes ∅ [Bound] preflight_request);
    reflexivity.
Defined.

(** X7 at a sample input: a JSON [POST] under the prefix of the route
    module reaches its router, which answers it. *)
Lemma other_requests_reach_route_module_witness :
  snd (sample_react (sample_run (sample_boot ∅) [Bound; DbResolved])
         (Incoming (post_request "/api/tutorials" "application/json" "{}")))
  = Some (sample_dispatch sample_routes DbConnected
            (with_body (JObj []) true
               (with_body (JObj []) false
                  (post_request "/api/tutorials" "application/json" "{}")))
            (set_header "access-control-allow-origin" "*" fresh_response)).
Proof.
  apply (other_requests_reach_route_module (node:=sample_node)
           sample_url sample_routes ∅ [Bound; DbResolved]
           (post_request "/api/tutorials" "application/json" "{}"));
    try reflexivity; discriminate.
Defined.
